(** * Xray data extractor worker: a shallow embedding of [worker.ts]

    The worker is a scheduled task that talks to the Xray REST API through
    the platform HTTP client: it creates a report, lists the reports and,
    in clean-up mode, deletes the reports it created earlier.

    The embedding follows the TypeScript source function by function.
    Asynchronous calls are awaited one after the other, so the program is
    sequential; its effects (HTTP requests, console output, exceptions) are
    threaded through a small state-and-exception monad. *)

From Stdlib Require Import ZArith List String Ascii Bool Lia.
From Stdlib Require Import DecimalString.
Import ListNotations.
Open Scope string_scope.
Open Scope Z_scope.

Set Implicit Arguments.

(** ** Values *)

(** JSON-like values, as far as the program builds them for request
    bodies and request options.  Objects keep their keys in insertion
    order. *)
#[local] Unset Elimination Schemes.
Inductive JsValue : Type :=
| JStr (s : string)
| JNum (n : Z)
| JArr (items : list JsValue)
| JObj (fields : list (string * JsValue)).
#[local] Set Elimination Schemes.

Definition JsObject : Type := list (string * JsValue).

(** [{ ...o, k: v }]: the own properties of [o], then [k] set to [v]
    (in place when [o] already has the key). *)
Fixpoint obj_set (k : string) (v : JsValue) (o : JsObject) : JsObject :=
  match o with
  | [] => [(k, v)]
  | (k', v') :: rest =>
      if String.eqb k' k then (k', v) :: rest
      else (k', v') :: obj_set k v rest
  end.

(** Template-literal rendering of an integer number. *)
Definition string_of_Z (z : Z) : string :=
  NilZero.string_of_int (Z.to_int z).

Definition string_of_nat (n : nat) : string := string_of_Z (Z.of_nat n).

(** [s.split(sep)] for a one-character separator. *)
Fixpoint split (sep : ascii) (s : string) : list string :=
  match s with
  | EmptyString => [EmptyString]
  | String c rest =>
      if Ascii.eqb c sep then EmptyString :: split sep rest
      else match split sep rest with
           | piece :: pieces => String c piece :: pieces
           | [] => [String c EmptyString]
           end
  end.

(** [s.startsWith(p)]. *)
Definition startsWith (s p : string) : bool := String.prefix p s.

(** ** Interfaces of the source *)

(** [interface ScheduledEventResponse { message: string }] *)
Record ScheduledEventResponse : Type := { message : string }.

(** [interface ReportDetail { id; status; name; progress }] *)
Module ReportDetail.
Record t : Type := {
  id : string;
  status : string;
  name : string;
  progress : Z
}.
End ReportDetail.

(** The response body is untyped ([any]) in the source.  The embedding
    keeps the two properties the program reads from it, at the types the
    source gives them: [report_id] (returned as [Promise<string>]) and
    [reports] (filtered as [ReportDetail]s). *)
Record ResponseData : Type := {
  report_id : string;
  reports : list ReportDetail.t
}.

(** The response of the HTTP client: [res.status] and [res.data].  The
    status is an integer, as HTTP status codes are. *)
Record HttpResponse : Type := {
  status : Z;
  data : ResponseData
}.

(** A thrown value, as the [catch] blocks read it: [error.message], a
    string, and [error.response?.status], absent when the error carries
    no response. *)
Record JsError : Type := {
  error_message : string;
  error_response_status : option Z
}.

(** [new Error(msg)] *)
Definition new_Error (msg : string) : JsError :=
  {| error_message := msg; error_response_status := None |}.

(** ** The platform HTTP client *)

(** A call of [context.clients.platformHttp], with its positional
    arguments as written at the call site.  For [post] the second
    argument is the request data (the body) and the third the request
    options; [delete] takes the URL and the options. *)
Inductive Request : Type :=
| Post (url : string) (requestData : option JsValue) (options : option JsValue)
| Delete (url : string) (options : option JsValue).

Definition request_url (r : Request) : string :=
  match r with
  | Post url _ _ => url
  | Delete url _ => url
  end.

Definition request_body (r : Request) : option JsValue :=
  match r with
  | Post _ body _ => body
  | Delete _ _ => None
  end.

Definition is_post (r : Request) : bool :=
  match r with Post _ _ _ => true | Delete _ _ => false end.

(** An awaited call either resolves with a response or rejects. *)
Inductive Outcome : Type :=
| Resolved (res : HttpResponse)
| Rejected (err : JsError).

(** The platform context.  The client is an arbitrary function of the
    requests made so far (oldest first) and the current request, so it
    can answer every call differently. *)
Record PlatformContext : Type := {
  platformHttp : list Request -> Request -> Outcome
}.

(** ** Effects *)

Inductive ConsoleLevel : Type := LOG | WARN | ERROR.

Inductive ConsoleArg : Type :=
| Text (s : string)
| ReportList (l : list ReportDetail.t).

Definition ConsoleEntry : Type := (ConsoleLevel * list ConsoleArg)%type.

(** What a run leaves behind: the HTTP requests and the console lines,
    both oldest first. *)
Record State : Type := {
  requests : list Request;
  console : list ConsoleEntry
}.

Definition initial : State := {| requests := []; console := [] |}.

Inductive Result (A : Type) : Type :=
| Ok (a : A)
| Throw (e : JsError).
Arguments Ok {A} a.
Arguments Throw {A} e.

Definition M (A : Type) : Type := State -> Result A * State.

Definition ret {A} (a : A) : M A := fun st => (Ok a, st).

Definition throw {A} (e : JsError) : M A := fun st => (Throw e, st).

Definition bind {A B} (c : M A) (k : A -> M B) : M B :=
  fun st =>
    match c st with
    | (Ok a, st') => k a st'
    | (Throw e, st') => (Throw e, st')
    end.

(** [try { c } catch (error) { h error }] *)
Definition try_catch {A} (c : M A) (h : JsError -> M A) : M A :=
  fun st =>
    match c st with
    | (Ok a, st') => (Ok a, st')
    | (Throw e, st') => h e st'
    end.

Notation "x <- c ;; k" := (bind c (fun x => k))
  (at level 61, c at next level, right associativity).
Notation "c ;;; k" := (bind c (fun _ => k))
  (at level 61, right associativity).

Definition console_write (lvl : ConsoleLevel) (args : list ConsoleArg) : M unit :=
  fun st =>
    (Ok tt, {| requests := requests st; console := console st ++ [(lvl, args)] |}).

Definition console_log (s : string) : M unit := console_write LOG [Text s].
Definition console_warn (s : string) : M unit := console_write WARN [Text s].
Definition console_error (s : string) : M unit := console_write ERROR [Text s].

(** [await context.clients.platformHttp.<method>(...)]: the request is
    recorded, then the client's outcome is returned or thrown. *)
Definition await_http (context : PlatformContext) (r : Request) : M HttpResponse :=
  fun st =>
    let st' := {| requests := requests st ++ [r]; console := console st |} in
    match platformHttp context (requests st) r with
    | Resolved res => (Ok res, st')
    | Rejected err => (Throw err, st')
    end.

(** ** The worker *)

(** The request options every call site writes:
    [{ headers: { 'Content-Type': 'application/json' } }]. *)
Definition json_headers : JsValue :=
  JObj [("headers", JObj [("Content-Type", JStr "application/json")])].

(** [error.response?.status || "<none>"]: an absent response and a
    falsy status both render as ["<none>"]. *)
Definition status_or_none (error : JsError) : string :=
  match error_response_status error with
  | Some s => if s =? 0 then "<none>" else string_of_Z s
  | None => "<none>"
  end.

(** [res.status === 200 || res.status < 400] *)
Definition is_success (res : HttpResponse) : bool :=
  (status res =? 200) || (status res <? 400).

(** The value [listReports] resolves with. *)
Record ReportListing : Type := {
  reportIds : list string;
  reportNames : list string
}.

Section Worker.

(** The two module-level constants of the source, set there to
    ['violations'] and [false]; the worker is redeployed with other
    values to change its behaviour. *)
Variable reportType : string.
Variable cleanReports : bool.

(** [new Date().toISOString()] at the time of the run. *)
Variable now : string.

Definition generateReportName : string :=
  "worker_xray_report_" ++ nth 0 (split "T"%char now) "".

Definition createReportPayload (reportName : string) : JsObject :=
  [ ("name", JStr reportName);
    ("resources",
      JObj [ ("projects",
               JObj [ ("names", JArr []);
                      ("include_key_patterns", JArr [JStr "**"]);
                      ("number_of_latest_versions", JNum 5) ]) ]);
    ("filters",
      JObj [ ("vulnerable_component", JStr "");
             ("impacted_artifact", JStr "");
             ("cve", JStr "");
             ("issue_id", JStr "");
             ("severities", JArr []) ]) ].

Definition generateVulnerabilitiesReport
    (context : PlatformContext) (payload : JsObject) (reportName : string)
  : M string :=
  try_catch
    (res <- await_http context
              (Post "/xray/api/v1/reports/vulnerabilities"
                    (Some (JObj payload)) (Some json_headers)) ;;
     if is_success res then
       ret (report_id (data res))
     else
       (console_warn ("Request succeeded but returned a non-200 status: "
                        ++ string_of_Z (status res)) ;;;
        throw (new_Error ("Failed to generate the vulnerabilities report: "
                            ++ string_of_Z (status res)))))
    (fun error =>
       console_error ("Request failed with status " ++ status_or_none error
                        ++ ": " ++ error_message error) ;;;
       throw (new_Error ("Failed to generate the vulnerabilities report: "
                           ++ error_message error))).

Definition generateViolationsReport
    (context : PlatformContext) (payload : JsObject) (reportName : string)
  : M string :=
  try_catch
    (res <- await_http context
              (Post "/xray/api/v1/reports/violations"
                    (Some (JObj (obj_set "headers"
                                   (JObj [("Content-Type", JStr "application/json")])
                                   payload)))
                    None) ;;
     if is_success res then
       ret (report_id (data res))
     else
       (console_warn ("Request succeeded but returned a non-200 status: "
                        ++ string_of_Z (status res)) ;;;
        throw (new_Error ("Failed to generate the violations report: "
                            ++ string_of_Z (status res)))))
    (fun error =>
       console_error ("Request failed with status " ++ status_or_none error
                        ++ ": " ++ error_message error) ;;;
       throw (new_Error ("Failed to generate the violations report: "
                           ++ error_message error))).

Definition list_url : string :=
  "/xray/api/v1/reports?direction=desc&page_num=1&num_of_rows=10&order_by=start_time".

Definition is_worker_report (report : ReportDetail.t) : bool :=
  startsWith (ReportDetail.name report) "worker_xray_report_".

Definition listReports (context : PlatformContext) : M ReportListing :=
  try_catch
    (reportList <- await_http context
                     (Post list_url (Some json_headers) None) ;;
     if is_success reportList then
       (console_write LOG [Text "All Reports:";
                           ReportList (reports (data reportList))] ;;;
        let filteredReports := filter is_worker_report (reports (data reportList)) in
        console_write LOG [Text "Filtered Reports:"; ReportList filteredReports] ;;;
        if (List.length filteredReports =? 0)%nat then
          (console_warn "No reports found with the specified name pattern." ;;;
           ret {| reportIds := []; reportNames := [] |})
        else
          ret {| reportIds := map ReportDetail.id filteredReports;
                 reportNames := map ReportDetail.name filteredReports |})
     else
       (console_warn ("Request succeeded but returned a non-200 status: "
                        ++ string_of_Z (status reportList)) ;;;
        throw (new_Error ("Failed to retrieve the reports: "
                            ++ string_of_Z (status reportList)))))
    (fun error =>
       console_error ("Request failed with status " ++ status_or_none error
                        ++ ": " ++ error_message error) ;;;
       throw (new_Error ("Failed to retrieve the reports: "
                           ++ error_message error))).

Definition delete_request (reportId : string) : Request :=
  Delete ("/xray/api/v1/reports/" ++ reportId) (Some json_headers).

(** The [for (const reportId of reportIds)] loop of [deleteReports]. *)
Fixpoint deleteLoop (context : PlatformContext) (ids : list string) : M unit :=
  match ids with
  | [] => ret tt
  | reportId :: rest =>
      res <- await_http context (delete_request reportId) ;;
      (if is_success res then
         console_log ("Successfully deleted report with ID: " ++ reportId)
       else
         console_warn ("Failed to delete report with ID: " ++ reportId
                         ++ ", status: " ++ string_of_Z (status res))) ;;;
      deleteLoop context rest
  end.

Definition deleteReports (context : PlatformContext) (ids : list string) : M unit :=
  try_catch
    (deleteLoop context ids)
    (fun error =>
       console_error ("Failed to delete reports: " ++ error_message error)).

(** The default export.  A [return] inside [try] ends the function; in
    the generate branch the [try] block falls through to the final
    [return], so the block yields [None] when it completes and the
    handler's early result otherwise. *)
Definition handler (context : PlatformContext) : M ScheduledEventResponse :=
  if cleanReports then
    try_catch
      (listing <- listReports context ;;
       let ids := reportIds listing in
       if (0 <? List.length ids)%nat then
         (deleteReports context ids ;;;
          ret {| message := "Successfully deleted "
                              ++ string_of_nat (List.length ids) ++ " reports." |})
       else
         ret {| message := "No reports found to delete." |})
      (fun error => ret {| message := error_message error |})
  else
    let reportName := generateReportName in
    let payload := createReportPayload reportName in
    early <-
      try_catch
        ((if String.eqb reportType "vulnerabilities" then
            generateVulnerabilitiesReport context payload reportName ;;; ret tt
          else if String.eqb reportType "violations" then
            generateViolationsReport context payload reportName ;;; ret tt
          else
            throw (new_Error ("Unknown report type: " ++ reportType))) ;;;
         listing <- listReports context ;;
         let ids := reportIds listing in
         (if (0 <? List.length ids)%nat then
            console_log ("Report created with name: " ++ reportName
                           ++ " and ID: " ++ nth 0 ids "")
          else
            console_log ("Report created with name: " ++ reportName
                           ++ " but no report ID was found.")) ;;;
         ret None)
        (fun error => ret (Some {| message := error_message error |})) ;;
    match early with
    | Some response => ret response
    | None =>
        ret {| message := "Vulnerabilities report " ++ reportName
                            ++ " was successfully generated." |}
    end.

End Worker.

(** ** Vocabulary of the statements *)

(** [s.includes(sub)] *)
Fixpoint includes (s sub : string) : bool :=
  String.prefix sub s ||
  match s with
  | EmptyString => false
  | String _ rest => includes rest sub
  end.

(** [sub] occurs somewhere in [s]. *)
Definition contains (s sub : string) : Prop :=
  exists pre post, s = pre ++ sub ++ post.

(** [sub] is picked out of [l] without reordering. *)
Inductive Subseq {A : Type} : list A -> list A -> Prop :=
| Subseq_nil : Subseq [] []
| Subseq_skip x sub l : Subseq sub l -> Subseq sub (x :: l)
| Subseq_take x sub l : Subseq sub l -> Subseq (x :: sub) (x :: l).

(** The fixed text each helper puts in front of its failures. *)
Definition vulnerabilities_failure : string :=
  "Failed to generate the vulnerabilities report: ".
Definition violations_failure : string :=
  "Failed to generate the violations report: ".
Definition listing_failure : string :=
  "Failed to retrieve the reports: ".

(** The requests the three POST call sites build. *)
Definition vulnerabilities_request (payload : JsObject) : Request :=
  Post "/xray/api/v1/reports/vulnerabilities" (Some (JObj payload)) (Some json_headers).

Definition violations_request (payload : JsObject) : Request :=
  Post "/xray/api/v1/reports/violations"
       (Some (JObj (obj_set "headers"
                      (JObj [("Content-Type", JStr "application/json")]) payload)))
       None.

Definition list_request : Request := Post list_url (Some json_headers) None.

(** The state after one more HTTP request. *)
Definition sent (r : Request) (st : State) : State :=
  {| requests := requests st ++ [r]; console := console st |}.

(** The state after one more console line. *)
Definition logged (lvl : ConsoleLevel) (args : list ConsoleArg) (st : State) : State :=
  {| requests := requests st; console := console st ++ [(lvl, args)] |}.

(** The two report variants: the value of [reportType], the helper the
    handler dispatches to, the request that helper sends and the text it
    puts in front of its failures. *)
Inductive ReportVariant :
  string -> (PlatformContext -> JsObject -> string -> M string) ->
  (JsObject -> Request) -> string -> Prop :=
| Vulnerabilities :
    ReportVariant "vulnerabilities" generateVulnerabilitiesReport
            vulnerabilities_request vulnerabilities_failure
| Violations :
    ReportVariant "violations" generateViolationsReport
            violations_request violations_failure.

(** The error a computation ends with, if it throws. *)
Definition thrown {A} (x : Result A * State) : option JsError :=
  match fst x with
  | Throw e => Some e
  | Ok _ => None
  end.

(** The three helpers that POST and check the status. *)
Inductive PostHelper : Type :=
| RequestVulnerabilities
| RequestViolations
| ListReports.

Definition helper_request (h : PostHelper) (payload : JsObject) : Request :=
  match h with
  | RequestVulnerabilities => vulnerabilities_request payload
  | RequestViolations => violations_request payload
  | ListReports => list_request
  end.

Definition helper_failure (h : PostHelper) : string :=
  match h with
  | RequestVulnerabilities => vulnerabilities_failure
  | RequestViolations => violations_failure
  | ListReports => listing_failure
  end.

Definition helper_thrown (h : PostHelper) (context : PlatformContext)
    (payload : JsObject) (reportName : string) (st : State) : option JsError :=
  match h with
  | RequestVulnerabilities =>
      thrown (generateVulnerabilitiesReport context payload reportName st)
  | RequestViolations =>
      thrown (generateViolationsReport context payload reportName st)
  | ListReports => thrown (listReports context st)
  end.

(** The shape the three POST helpers share: one awaited call inside a
    [try], a status check, and a [catch] that wraps whatever was thrown. *)
Definition guarded_call {A} (context : PlatformContext) (r : Request)
    (failure : string) (k : HttpResponse -> M A) : M A :=
  try_catch
    (res <- await_http context r ;;
     if is_success res then k res
     else
       (console_warn ("Request succeeded but returned a non-200 status: "
                        ++ string_of_Z (status res)) ;;;
        throw (new_Error (failure ++ string_of_Z (status res)))))
    (fun error =>
       console_error ("Request failed with status " ++ status_or_none error
                        ++ ": " ++ error_message error) ;;;
       throw (new_Error (failure ++ error_message error))).

(** The name is the fixed prefix followed by anything. *)
Definition worker_named (r : ReportDetail.t) : Prop :=
  exists rest, ReportDetail.name r = "worker_xray_report_" ++ rest.

(** ** Example clients *)

Definition response (s : Z) (rid : string) (rs : list ReportDetail.t) : HttpResponse :=
  {| status := s; data := {| report_id := rid; reports := rs |} |}.

Definition report (i n : string) : ReportDetail.t :=
  {| ReportDetail.id := i; ReportDetail.status := "completed";
     ReportDetail.name := n; ReportDetail.progress := 100 |}.

(** A client that answers every call with the same outcome. *)
Definition always (o : Outcome) : PlatformContext :=
  {| platformHttp := fun _ _ => o |}.

(** A server holding three reports, two of them made by the worker, on
    which deleting report ["b"] is refused with status 500. *)
Definition refusing_b : PlatformContext :=
  {| platformHttp := fun _ r =>
       match r with
       | Post _ _ _ =>
           Resolved (response 200 "R1"
                       [ report "a" "worker_xray_report_2025-01-02";
                         report "x" "other_report";
                         report "b" "worker_xray_report_2025-01-01" ])
       | Delete url _ =>
           if String.eqb url "/xray/api/v1/reports/b"
           then Resolved (response 500 "" [])
           else Resolved (response 200 "" [])
       end |}.

(** The time of the example runs, as [toISOString] renders it. *)
Definition example_now : string := "2025-01-03T10:00:00.000Z".

(** A server that answers every call with status 500. *)
Definition failing_500 : PlatformContext :=
  always (Resolved (response 500 "" [])).

(** The same server behind a connection that breaks on every DELETE. *)
Definition broken_delete : PlatformContext :=
  {| platformHttp := fun _ r =>
       match r with
       | Post _ _ _ =>
           Resolved (response 200 "R1"
                       [ report "a" "worker_xray_report_2025-01-02";
                         report "x" "other_report";
                         report "b" "worker_xray_report_2025-01-01" ])
       | Delete _ _ =>
           Rejected {| error_message := "socket hang up";
                       error_response_status := None |}
       end |}.

(** ** Vocabulary of the further properties *)

(** The character [c] occurs in [s]. *)
Fixpoint has_char (c : ascii) (s : string) : bool :=
  match s with
  | EmptyString => false
  | String d rest => Ascii.eqb d c || has_char c rest
  end.

(** The console line the delete loop writes for one identifier, given
    the response to its DELETE. *)
Definition delete_line (reportId : string) (res : HttpResponse) : ConsoleEntry :=
  if is_success res then
    (LOG, [Text ("Successfully deleted report with ID: " ++ reportId)])
  else
    (WARN, [Text ("Failed to delete report with ID: " ++ reportId
                    ++ ", status: " ++ string_of_Z (status res))]).

(** The answer of a successful generate run. *)
Definition generated_message (reportName : string) : string :=
  "Vulnerabilities report " ++ reportName ++ " was successfully generated.".

(** The answer of a clean-up run that found [n] reports. *)
Definition deleted_message (n : nat) : string :=
  "Successfully deleted " ++ string_of_nat n ++ " reports.".

(** The state a POST helper leaves behind. *)
Definition helper_state (h : PostHelper) (context : PlatformContext)
    (payload : JsObject) (reportName : string) (st : State) : State :=
  match h with
  | RequestVulnerabilities =>
      snd (generateVulnerabilitiesReport context payload reportName st)
  | RequestViolations =>
      snd (generateViolationsReport context payload reportName st)
  | ListReports => snd (listReports context st)
  end.

(** A client whose listing is refused with status 503 once the report
    has been created. *)
Definition listing_refused : PlatformContext :=
  {| platformHttp := fun history _ =>
       match history with
       | [] => Resolved (response 200 "R1" [])
       | _ :: _ => Resolved (response 503 "" [])
       end |}.

(** A client without a connection: every call rejects. *)
Definition offline : PlatformContext :=
  always (Rejected {| error_message := "connect ECONNREFUSED";
                      error_response_status := None |}).

(** ** Strings *)

Lemma prefix_append (p rest : string) : String.prefix p (p ++ rest) = true.
Proof.
  induction p as [|c p IH]; simpl.
  - destruct rest; reflexivity.
  - rewrite IH. destruct (ascii_dec c c); congruence.
Qed.

Lemma prefix_split (p s : string) :
  String.prefix p s = true -> exists rest, s = p ++ rest.
Proof.
  revert s. induction p as [|c p IH]; intros s H.
  - exists s. reflexivity.
  - destruct s as [|d s]; simpl in H; [discriminate|].
    destruct (ascii_dec c d) as [->|]; [|discriminate].
    destruct (IH s H) as [rest ->]. exists rest. reflexivity.
Qed.

Lemma startsWith_spec (s p : string) :
  startsWith s p = true <-> exists rest, s = p ++ rest.
Proof.
  unfold startsWith. split.
  - apply prefix_split.
  - intros [rest ->]. apply prefix_append.
Qed.

Lemma append_assoc (a b c : string) : (a ++ b) ++ c = a ++ (b ++ c).
Proof. induction a; simpl; congruence. Qed.

Lemma contains_suffix (pre sub : string) : contains (pre ++ sub) sub.
Proof.
  exists pre, "". f_equal. induction sub; simpl; congruence.
Qed.

Lemma includes_nil (sub : string) :
  includes "" sub = String.prefix sub "".
Proof. simpl. apply orb_false_r. Qed.

Lemma includes_cons (c : ascii) (s sub : string) :
  includes (String c s) sub = String.prefix sub (String c s) || includes s sub.
Proof. reflexivity. Qed.

Lemma includes_contains (s sub : string) :
  includes s sub = true <-> contains s sub.
Proof.
  split.
  - induction s as [|c s IH]; intros H.
    + rewrite includes_nil in H. destruct (prefix_split _ _ H) as [rest E].
      exists "", rest. exact E.
    + rewrite includes_cons in H. apply orb_true_iff in H as [H|H].
      * destruct (prefix_split _ _ H) as [rest E]. exists "", rest. exact E.
      * destruct (IH H) as (a & b & ->). exists (String c a), b. reflexivity.
  - intros (a & b & ->). induction a as [|c a IH].
    + change ("" ++ sub ++ b) with (sub ++ b).
      destruct (sub ++ b) as [|d t] eqn:E.
      * rewrite includes_nil, <- E. apply prefix_append.
      * rewrite includes_cons, <- E, prefix_append. reflexivity.
    + change (String c a ++ sub ++ b) with (String c (a ++ sub ++ b)).
      rewrite includes_cons, IH. apply orb_true_r.
Qed.

(** ** The monad *)

Lemma await_http_resolved context r res st :
  platformHttp context (requests st) r = Resolved res ->
  await_http context r st = (Ok res, sent r st).
Proof. intros H. unfold await_http. rewrite H. reflexivity. Qed.

Lemma await_http_rejected context r err st :
  platformHttp context (requests st) r = Rejected err ->
  await_http context r st = (Throw err, sent r st).
Proof. intros H. unfold await_http. rewrite H. reflexivity. Qed.

(** ** The three POST helpers *)

Lemma generateVulnerabilitiesReport_shape context payload reportName :
  generateVulnerabilitiesReport context payload reportName
  = guarded_call context (vulnerabilities_request payload)
      vulnerabilities_failure (fun res => ret (report_id (data res))).
Proof. reflexivity. Qed.

Lemma generateViolationsReport_shape context payload reportName :
  generateViolationsReport context payload reportName
  = guarded_call context (violations_request payload)
      violations_failure (fun res => ret (report_id (data res))).
Proof. reflexivity. Qed.

Section GuardedCall.

Context {A : Type}.
Variable context : PlatformContext.
Variable r : Request.
Variable failure : string.
Variable k : HttpResponse -> M A.
Variable st : State.

(** The call resolves with a success status and the rest of the block
    completes. *)
Lemma guarded_call_success res a st' :
  platformHttp context (requests st) r = Resolved res ->
  is_success res = true ->
  k res (sent r st) = (Ok a, st') ->
  guarded_call context r failure k st = (Ok a, st').
Proof.
  intros Hres Hok Hk. unfold guarded_call, try_catch, bind.
  rewrite (await_http_resolved _ _ _ Hres), Hok, Hk. reflexivity.
Qed.

(** The call resolves with a non-success status: the error thrown in the
    [else] branch is caught by the same function and wrapped again. *)
Lemma guarded_call_status res :
  platformHttp context (requests st) r = Resolved res ->
  is_success res = false ->
  guarded_call context r failure k st
  = (Throw (new_Error (failure ++ failure ++ string_of_Z (status res))),
     logged ERROR
       [Text ("Request failed with status <none>: "
                ++ failure ++ string_of_Z (status res))]
       (logged WARN
          [Text ("Request succeeded but returned a non-200 status: "
                   ++ string_of_Z (status res))]
          (sent r st))).
Proof.
  intros Hres Hok. unfold guarded_call, try_catch, bind.
  rewrite (await_http_resolved _ _ _ Hres), Hok. reflexivity.
Qed.

(** The call rejects. *)
Lemma guarded_call_rejected err :
  platformHttp context (requests st) r = Rejected err ->
  guarded_call context r failure k st
  = (Throw (new_Error (failure ++ error_message err)),
     logged ERROR
       [Text ("Request failed with status " ++ status_or_none err
                ++ ": " ++ error_message err)]
       (sent r st)).
Proof.
  intros Hrej. unfold guarded_call, try_catch, bind.
  rewrite (await_http_rejected _ _ _ Hrej). reflexivity.
Qed.

End GuardedCall.

Lemma is_success_lt (res : HttpResponse) :
  is_success res = true <-> status res < 400.
Proof.
  unfold is_success. rewrite orb_true_iff, Z.eqb_eq, Z.ltb_lt. lia.
Qed.

Lemma is_success_ge (res : HttpResponse) :
  is_success res = false <-> 400 <= status res.
Proof.
  unfold is_success. rewrite orb_false_iff, Z.eqb_neq, Z.ltb_ge. lia.
Qed.

Lemma listReports_shape context :
  listReports context
  = guarded_call context list_request listing_failure
      (fun reportList =>
         console_write LOG [Text "All Reports:";
                            ReportList (reports (data reportList))] ;;;
         let filteredReports :=
           filter is_worker_report (reports (data reportList)) in
         console_write LOG [Text "Filtered Reports:"; ReportList filteredReports] ;;;
         if (List.length filteredReports =? 0)%nat then
           (console_warn "No reports found with the specified name pattern." ;;;
            ret {| reportIds := []; reportNames := [] |})
         else
           ret {| reportIds := map ReportDetail.id filteredReports;
                  reportNames := map ReportDetail.name filteredReports |}).
Proof. reflexivity. Qed.

(** C3.  When the creation endpoint answers with a status below 400 the
    requester returns the [report_id] of the response body; when it
    answers with a status of 400 or more the requester fails and the text
    of the failure includes that status code.  Both variants. *)
Theorem requester_result
    reportType generate request failure
    (context : PlatformContext) (payload : JsObject) (reportName : string)
    (st : State) (res : HttpResponse) :
  ReportVariant reportType generate request failure ->
  platformHttp context (requests st) (request payload) = Resolved res ->
  (status res < 400 ->
     fst (generate context payload reportName st) = Ok (report_id (data res)))
  /\ (400 <= status res ->
     exists e, fst (generate context payload reportName st) = Throw e
               /\ contains (error_message e) (string_of_Z (status res))).
Proof.
  intros V Hres.
  assert (Hshape : generate context payload reportName
                   = guarded_call context (request payload) failure
                       (fun res => ret (report_id (data res))))
    by (destruct V; reflexivity).
  rewrite Hshape. split; intros Hs.
  - apply is_success_lt in Hs.
    rewrite (@guarded_call_success _ context (request payload) failure _ st
               res _ _ Hres Hs eq_refl).
    reflexivity.
  - apply is_success_ge in Hs.
    rewrite (@guarded_call_status _ _ _ failure _ _ _ Hres Hs). eexists. split; [reflexivity|].
    simpl error_message. rewrite <- append_assoc. apply contains_suffix.
Qed.

Lemma requester_result_witness :
  exists e,
    fst (generateViolationsReport (always (Resolved (response 503 "" [])))
           (createReportPayload "n") "n" initial) = Throw e
    /\ contains (error_message e) "503".
Proof.
  apply (proj2 (@requester_result _ _ _ _
                  (always (Resolved (response 503 "" [])))
                  (createReportPayload "n") "n" initial (response 503 "" [])
                  Violations eq_refl)).
  simpl. lia.
Defined.

(** C10.  When the client resolves with a status of 400 or more, the
    error a POST helper ends with carries the helper's fixed text twice:
    the error thrown in the status branch is caught by the same function
    and wrapped again. *)
Theorem status_failure_wrapped_twice
    (h : PostHelper) (context : PlatformContext) (payload : JsObject)
    (reportName : string) (st : State) (res : HttpResponse) :
  platformHttp context (requests st) (helper_request h payload) = Resolved res ->
  400 <= status res ->
  helper_thrown h context payload reportName st
  = Some (new_Error (helper_failure h ++ helper_failure h
                       ++ string_of_Z (status res))).
Proof.
  intros Hres Hs. apply is_success_ge in Hs.
  destruct h; unfold helper_thrown, thrown;
    [ rewrite generateVulnerabilitiesReport_shape
    | rewrite generateViolationsReport_shape
    | rewrite listReports_shape ];
    rewrite (@guarded_call_status _ _ _ _ _ _ _ Hres Hs); reflexivity.
Qed.

Lemma status_failure_wrapped_twice_witness :
  thrown (generateVulnerabilitiesReport (always (Resolved (response 500 "" [])))
            (createReportPayload "n") "n" initial)
  = Some (new_Error
            "Failed to generate the vulnerabilities report: Failed to generate the vulnerabilities report: 500").
Proof.
  apply (@status_failure_wrapped_twice RequestVulnerabilities
           (always (Resolved (response 500 "" [])))
           (createReportPayload "n") "n" initial (response 500 "" []) eq_refl).
  simpl. lia.
Defined.

(** ** The lister *)

Lemma is_worker_report_spec (r : ReportDetail.t) :
  is_worker_report r = true <-> worker_named r.
Proof. apply startsWith_spec. Qed.

Section Subsequences.

Context {A : Type}.
Variable keep : A -> bool.

Lemma filter_Subseq (l : list A) : Subseq (filter keep l) l.
Proof.
  induction l as [|x l IH]; simpl.
  - constructor.
  - destruct (keep x); constructor; exact IH.
Qed.

(** Every subsequence whose elements are all kept is found inside the
    filtered list. *)
Lemma Subseq_filter_largest (sub l : list A) :
  Subseq sub l ->
  (forall x, In x sub -> keep x = true) ->
  Subseq sub (filter keep l).
Proof.
  induction 1 as [|x sub l _ IH|x sub l _ IH]; intros Hall; simpl.
  - constructor.
  - destruct (keep x); [apply Subseq_skip|]; apply IH; exact Hall.
  - rewrite (Hall x (or_introl eq_refl)).
    apply Subseq_take, IH. intros y Hy. apply Hall. right. exact Hy.
Qed.

Lemma filter_nothing (l : list A) :
  (forall x, In x l -> keep x = false) -> filter keep l = [].
Proof.
  induction l as [|x l IH]; intros Hnone; simpl.
  - reflexivity.
  - rewrite (Hnone x (or_introl eq_refl)).
    apply IH. intros y Hy. apply Hnone. right. exact Hy.
Qed.

End Subsequences.

Lemma nth_error_map_option {A B} (f : A -> B) (l : list A) (i : nat) :
  nth_error (map f l) i = option_map f (nth_error l i).
Proof.
  revert i. induction l as [|x l IH]; intros [|i]; simpl; auto.
Qed.

(** What [listReports] returns and leaves behind when the call resolves
    with a success status. *)
Lemma listReports_success context st res :
  platformHttp context (requests st) list_request = Resolved res ->
  is_success res = true ->
  exists st',
    listReports context st
    = (Ok {| reportIds :=
               map ReportDetail.id (filter is_worker_report (reports (data res)));
             reportNames :=
               map ReportDetail.name (filter is_worker_report (reports (data res))) |},
       st')
    /\ requests st' = (requests st ++ [list_request])%list.
Proof.
  intros Hres Hok. rewrite listReports_shape.
  destruct (filter is_worker_report (reports (data res))) as [|r F] eqn:EF.
  - eexists. split.
    + eapply guarded_call_success; [exact Hres|exact Hok|].
      unfold bind, console_write, console_warn, ret. simpl. rewrite EF.
      reflexivity.
    + reflexivity.
  - eexists. split.
    + eapply guarded_call_success; [exact Hres|exact Hok|].
      unfold bind, console_write, console_warn, ret. simpl. rewrite EF.
      reflexivity.
    + reflexivity.
Qed.

(** C5.  On a successful listing response with report list [L] the lister
    returns the identifiers and the names of one list [F] of reports, so
    the two sequences are aligned index by index; [F] is picked out of [L]
    in order, holds only reports whose name starts with the prefix, and
    holds every such report of [L]; when no report of [L] matches, both
    sequences are empty and the lister does not fail. *)
Theorem listReports_filters
    (context : PlatformContext) (st : State) (res : HttpResponse) :
  platformHttp context (requests st) list_request = Resolved res ->
  status res < 400 ->
  exists F ids names,
    fst (listReports context st) = Ok {| reportIds := ids; reportNames := names |}
    /\ ids = map ReportDetail.id F
    /\ names = map ReportDetail.name F
    /\ (forall i, nth_error ids i = option_map ReportDetail.id (nth_error F i)
                  /\ nth_error names i = option_map ReportDetail.name (nth_error F i))
    /\ Subseq F (reports (data res))
    /\ (forall r, In r F -> worker_named r)
    /\ (forall F', Subseq F' (reports (data res)) ->
                   (forall r, In r F' -> worker_named r) -> Subseq F' F)
    /\ ((forall r, In r (reports (data res)) -> ~ worker_named r) ->
        ids = [] /\ names = []).
Proof.
  intros Hres Hs. apply is_success_lt in Hs.
  destruct (listReports_success _ _ Hres Hs) as (st' & Hrun & _).
  exists (filter is_worker_report (reports (data res))).
  do 2 eexists. rewrite Hrun. split; [reflexivity|].
  split; [reflexivity|]. split; [reflexivity|].
  split; [intros i; split; apply nth_error_map_option|].
  split; [apply filter_Subseq|].
  split; [intros r Hr; apply filter_In in Hr; apply is_worker_report_spec, Hr|].
  split.
  - intros F' Hsub Hall. apply Subseq_filter_largest; [exact Hsub|].
    intros r Hr. apply is_worker_report_spec, Hall, Hr.
  - intros Hnone. rewrite filter_nothing; [split; reflexivity|].
    intros r Hr. destruct (is_worker_report r) eqn:E; [|reflexivity].
    exfalso. apply (Hnone r Hr). apply is_worker_report_spec, E.
Qed.

Lemma listReports_filters_witness :
  exists F ids names,
    fst (listReports refusing_b initial)
    = Ok {| reportIds := ids; reportNames := names |}
    /\ ids = map ReportDetail.id F
    /\ names = map ReportDetail.name F
    /\ Subseq F [ report "a" "worker_xray_report_2025-01-02";
                  report "x" "other_report";
                  report "b" "worker_xray_report_2025-01-01" ].
Proof.
  destruct (@listReports_filters refusing_b initial
              (response 200 "R1"
                 [ report "a" "worker_xray_report_2025-01-02";
                   report "x" "other_report";
                   report "b" "worker_xray_report_2025-01-01" ])
              eq_refl ltac:(simpl; lia))
    as (F & ids & names & Hrun & Hids & Hnames & _ & Hsub & _).
  exists F, ids, names. repeat split; assumption.
Defined.

(** ** Requests sent by the POST helpers *)

Lemma guarded_call_requests {A} context r failure (k : HttpResponse -> M A) st :
  (forall res s, requests (snd (k res s)) = requests s) ->
  requests (snd (guarded_call context r failure k st))
  = (requests st ++ [r])%list.
Proof.
  intros Hk. unfold guarded_call, try_catch, bind, await_http.
  destruct (platformHttp context (requests st) r) as [res|err].
  - destruct (is_success res).
    + specialize (Hk res (sent r st)). unfold sent in Hk.
      match goal with
      | |- context [k res ?s] => destruct (k res s) as [[a|e] s']
      end; simpl in *; exact Hk.
    + reflexivity.
  - reflexivity.
Qed.

Lemma listReports_requests context st :
  requests (snd (listReports context st)) = (requests st ++ [list_request])%list.
Proof.
  rewrite listReports_shape. apply guarded_call_requests.
  intros res s. unfold bind, console_write, console_warn, ret. simpl.
  destruct (List.length (filter is_worker_report (reports (data res))) =? 0)%nat;
    reflexivity.
Qed.

Lemma requester_requests reportType generate request failure
    context payload reportName st :
  ReportVariant reportType generate request failure ->
  requests (snd (generate context payload reportName st))
  = (requests st ++ [request payload])%list.
Proof.
  intros V.
  assert (Hshape : generate context payload reportName
                   = guarded_call context (request payload) failure
                       (fun res => ret (report_id (data res))))
    by (destruct V; reflexivity).
  rewrite Hshape. apply guarded_call_requests. reflexivity.
Qed.

(** C9.  The one request of the lister is a POST to
    [reports?direction=desc&page_num=1&num_of_rows=10&order_by=start_time]
    under the base path, but it is sent with a request body: the options
    object [{ headers: { 'Content-Type': 'application/json' } }] sits in
    the position of the request data. *)
Theorem listReports_request_has_body (context : PlatformContext) (st : State) :
  exists r,
    requests (snd (listReports context st)) = (requests st ++ [r])%list
    /\ is_post r = true
    /\ request_url r
       = "/xray/api/v1/"
         ++ "reports?direction=desc&page_num=1&num_of_rows=10&order_by=start_time"
    /\ request_body r = Some json_headers
    /\ request_body r <> None.
Proof.
  exists list_request. split; [apply listReports_requests|].
  repeat split. discriminate.
Qed.

(** ** The deleter *)

Lemma deleteLoop_cons context reportId rest st :
  deleteLoop context (reportId :: rest) st
  = match platformHttp context (requests st) (delete_request reportId) with
    | Resolved res =>
        deleteLoop context rest
          (logged (if is_success res then LOG else WARN)
             [Text (if is_success res
                    then "Successfully deleted report with ID: " ++ reportId
                    else "Failed to delete report with ID: " ++ reportId
                           ++ ", status: " ++ string_of_Z (status res))]
             (sent (delete_request reportId) st))
    | Rejected err => (Throw err, sent (delete_request reportId) st)
    end.
Proof.
  cbn [deleteLoop]. unfold bind, await_http.
  destruct (platformHttp context (requests st) (delete_request reportId)) as [res|err].
  - destruct (is_success res); reflexivity.
  - reflexivity.
Qed.

Lemma deleteLoop_app context pre post st :
  deleteLoop context (pre ++ post) st
  = match deleteLoop context pre st with
    | (Ok _, st1) => deleteLoop context post st1
    | (Throw e, st1) => (Throw e, st1)
    end.
Proof.
  revert st. induction pre as [|reportId pre IH]; intros st.
  - reflexivity.
  - change ((reportId :: pre) ++ post)%list with (reportId :: (pre ++ post))%list.
    rewrite !deleteLoop_cons.
    destruct (platformHttp context (requests st) (delete_request reportId));
      [apply IH|reflexivity].
Qed.

(** A loop that completes has sent one DELETE per identifier, in order. *)
Lemma deleteLoop_completed context ids st st1 :
  deleteLoop context ids st = (Ok tt, st1) ->
  requests st1 = (requests st ++ map delete_request ids)%list.
Proof.
  revert st. induction ids as [|reportId ids IH]; intros st H.
  - injection H as <-. simpl. rewrite app_nil_r. reflexivity.
  - rewrite deleteLoop_cons in H.
    destruct (platformHttp context (requests st) (delete_request reportId));
      [|discriminate].
    apply IH in H. rewrite H. simpl. rewrite <- app_assoc. reflexivity.
Qed.

(** While the client resolves, whatever the status, the loop goes on. *)
Lemma deleteLoop_resolving context ids st :
  (forall history reportId,
      In reportId ids ->
      exists res, platformHttp context history (delete_request reportId)
                  = Resolved res) ->
  exists st1, deleteLoop context ids st = (Ok tt, st1).
Proof.
  revert st. induction ids as [|reportId ids IH]; intros st Hres.
  - eexists. reflexivity.
  - rewrite deleteLoop_cons.
    destruct (Hres (requests st) reportId (or_introl eq_refl)) as [res ->].
    apply IH. intros history i Hi. apply Hres. right. exact Hi.
Qed.

(** The deleter catches whatever its loop throws. *)
Lemma deleteReports_returns context ids st :
  fst (deleteReports context ids st) = Ok tt.
Proof.
  unfold deleteReports, try_catch.
  destruct (deleteLoop context ids st) as [[[]|e] st1]; reflexivity.
Qed.

(** C6.  As long as every DELETE call resolves, with whatever status, the
    deleter attempts every identifier, in order, and completes without
    raising: a non-success status does not end the batch. *)
Theorem deleteReports_continues_past_status
    (context : PlatformContext) (ids : list string) (st : State) :
  (forall history reportId,
      In reportId ids ->
      exists res, platformHttp context history (delete_request reportId)
                  = Resolved res) ->
  exists st',
    deleteReports context ids st = (Ok tt, st')
    /\ requests st' = (requests st ++ map delete_request ids)%list.
Proof.
  intros Hres. destruct (deleteLoop_resolving context ids st Hres) as [st1 Hloop].
  exists st1. split.
  - unfold deleteReports, try_catch. rewrite Hloop. reflexivity.
  - apply (deleteLoop_completed _ _ _ Hloop).
Qed.

Lemma deleteReports_continues_past_status_witness :
  exists st',
    deleteReports refusing_b ["a"; "b"; "c"] initial = (Ok tt, st')
    /\ requests st'
       = [ Delete "/xray/api/v1/reports/a" (Some json_headers);
           Delete "/xray/api/v1/reports/b" (Some json_headers);
           Delete "/xray/api/v1/reports/c" (Some json_headers) ].
Proof.
  apply (@deleteReports_continues_past_status refusing_b ["a"; "b"; "c"] initial).
  intros history reportId Hin. simpl.
  match goal with
  | |- context [if ?b then _ else _] => destruct b
  end; eexists; reflexivity.
Defined.

(** The run behind the previous statement: the refusal of ["b"] is
    recorded as a warning between the two successful deletions. *)
Example deleteReports_refusing_b :
  deleteReports refusing_b ["a"; "b"; "c"] initial
  = (Ok tt,
     {| requests := [ delete_request "a"; delete_request "b"; delete_request "c" ];
        console :=
          [ (LOG, [Text "Successfully deleted report with ID: a"]);
            (WARN, [Text "Failed to delete report with ID: b, status: 500"]);
            (LOG, [Text "Successfully deleted report with ID: c"]) ] |}).
Proof. reflexivity. Qed.

(** ** The handler, branch by branch *)

Lemma handler_clean reportType now context st :
  handler reportType true now context st
  = match listReports context st with
    | (Ok listing, st1) =>
        if (0 <? List.length (reportIds listing))%nat then
          (Ok {| message := "Successfully deleted "
                              ++ string_of_nat (List.length (reportIds listing))
                              ++ " reports." |},
           snd (deleteReports context (reportIds listing) st1))
        else
          (Ok {| message := "No reports found to delete." |}, st1)
    | (Throw e, st1) => (Ok {| message := error_message e |}, st1)
    end.
Proof.
  unfold handler, try_catch, bind.
  destruct (listReports context st) as [[listing|e] st1]; [|reflexivity].
  destruct (0 <? List.length (reportIds listing))%nat; [|reflexivity].
  pose proof (deleteReports_returns context (reportIds listing) st1) as Hret.
  destruct (deleteReports context (reportIds listing) st1) as [[[]|e] st2];
    [reflexivity|discriminate].
Qed.

Lemma handler_generate reportType generate request failure now context st :
  ReportVariant reportType generate request failure ->
  handler reportType false now context st
  = let reportName := generateReportName now in
    match generate context (createReportPayload reportName) reportName st with
    | (Ok _, st1) =>
        match listReports context st1 with
        | (Ok listing, st2) =>
            (Ok {| message := "Vulnerabilities report " ++ reportName
                                ++ " was successfully generated." |},
             logged LOG
               [Text (if (0 <? List.length (reportIds listing))%nat
                      then "Report created with name: " ++ reportName
                             ++ " and ID: " ++ nth 0 (reportIds listing) ""
                      else "Report created with name: " ++ reportName
                             ++ " but no report ID was found.")]
               st2)
        | (Throw e, st2) => (Ok {| message := error_message e |}, st2)
        end
    | (Throw e, st1) => (Ok {| message := error_message e |}, st1)
    end.
Proof.
  intros V. unfold handler, try_catch, bind.
  destruct V.
  - change ("vulnerabilities" =? "vulnerabilities")%string with true.
    cbv beta iota zeta.
    destruct (generateVulnerabilitiesReport context _ _ st) as [[rid|e] st1];
      [|reflexivity].
    unfold ret at 1. cbv beta iota.
    destruct (listReports context st1) as [[listing|e] st2]; [|reflexivity].
    destruct (0 <? List.length (reportIds listing))%nat; reflexivity.
  - change ("violations" =? "vulnerabilities")%string with false.
    change ("violations" =? "violations")%string with true.
    cbv beta iota zeta.
    destruct (generateViolationsReport context _ _ st) as [[rid|e] st1];
      [|reflexivity].
    unfold ret at 1. cbv beta iota.
    destruct (listReports context st1) as [[listing|e] st2]; [|reflexivity].
    destruct (0 <? List.length (reportIds listing))%nat; reflexivity.
Qed.

Lemma handler_unknown reportType now context st :
  (reportType =? "vulnerabilities")%string = false ->
  (reportType =? "violations")%string = false ->
  handler reportType false now context st
  = (Ok {| message := "Unknown report type: " ++ reportType |}, st).
Proof.
  intros H1 H2. unfold handler, try_catch, bind. rewrite H1, H2. reflexivity.
Qed.

Lemma ReportVariant_cases reportType :
  (exists generate request failure,
      ReportVariant reportType generate request failure)
  \/ ((reportType =? "vulnerabilities")%string = false
      /\ (reportType =? "violations")%string = false).
Proof.
  destruct (reportType =? "vulnerabilities")%string eqn:E1.
  - apply String.eqb_eq in E1 as ->. left. do 3 eexists. constructor.
  - destruct (reportType =? "violations")%string eqn:E2.
    + apply String.eqb_eq in E2 as ->. left. do 3 eexists. constructor.
    + right. split; reflexivity.
Qed.

(** C1.  In clean-up mode, once the listing has succeeded: with no
    identifier listed the handler answers [No reports found to delete.]
    and stops in the state the listing left, whose only new request is the
    listing itself, so no DELETE is sent; with identifiers listed it runs
    the deleter on exactly those identifiers and answers
    [Successfully deleted N reports.], N being their number. *)
Theorem clean_mode_after_listing
    (reportType now : string) (context : PlatformContext)
    (st st1 : State) (listing : ReportListing) :
  listReports context st = (Ok listing, st1) ->
  (reportIds listing = [] ->
     handler reportType true now context st
     = (Ok {| message := "No reports found to delete." |}, st1)
     /\ requests st1 = (requests st ++ [list_request])%list)
  /\
  (reportIds listing <> [] ->
     handler reportType true now context st
     = (Ok {| message := "Successfully deleted "
                           ++ string_of_nat (List.length (reportIds listing))
                           ++ " reports." |},
        snd (deleteReports context (reportIds listing) st1))
     /\ fst (deleteReports context (reportIds listing) st1) = Ok tt).
Proof.
  intros Hlist. rewrite handler_clean, Hlist. split.
  - intros ->. split; [reflexivity|].
    pose proof (listReports_requests context st) as H.
    rewrite Hlist in H. exact H.
  - intros Hne. split; [|apply deleteReports_returns].
    destruct (reportIds listing); [congruence|reflexivity].
Qed.

Lemma clean_mode_after_listing_witness :
  handler "violations" true example_now refusing_b initial
  = (Ok {| message := "Successfully deleted 2 reports." |},
     snd (deleteReports refusing_b ["a"; "b"]
            (snd (listReports refusing_b initial)))).
Proof.
  apply (proj2 (@clean_mode_after_listing "violations"
                  example_now refusing_b initial
                  (snd (listReports refusing_b initial))
                  {| reportIds := ["a"; "b"];
                     reportNames := ["worker_xray_report_2025-01-02";
                                     "worker_xray_report_2025-01-01"] |}
                  eq_refl)).
  discriminate.
Defined.

(** C2.  In generate mode, when creation and listing both succeed, the
    handler answers [Vulnerabilities report <name> was successfully
    generated.] with the name computed for the run, for the violations
    variant as for the vulnerabilities one. *)
Theorem generate_mode_success_message
    reportType generate request failure
    (now : string) (context : PlatformContext) (st st1 st2 : State)
    (rid : string) (listing : ReportListing) :
  ReportVariant reportType generate request failure ->
  generate context (createReportPayload (generateReportName now))
           (generateReportName now) st = (Ok rid, st1) ->
  listReports context st1 = (Ok listing, st2) ->
  fst (handler reportType false now context st)
  = Ok {| message := "Vulnerabilities report " ++ generateReportName now
                       ++ " was successfully generated." |}.
Proof.
  intros V Hgen Hlist. rewrite (handler_generate now context st V).
  cbv zeta. rewrite Hgen, Hlist. reflexivity.
Qed.

Lemma generate_mode_success_message_witness :
  fst (handler "violations" false example_now refusing_b initial)
  = Ok {| message :=
            "Vulnerabilities report worker_xray_report_2025-01-03 was successfully generated." |}.
Proof.
  apply (@generate_mode_success_message _ _ _ _
           example_now refusing_b initial
           (snd (generateViolationsReport refusing_b
                   (createReportPayload "worker_xray_report_2025-01-03")
                   "worker_xray_report_2025-01-03" initial))
           (snd (listReports refusing_b
                   (snd (generateViolationsReport refusing_b
                           (createReportPayload "worker_xray_report_2025-01-03")
                           "worker_xray_report_2025-01-03" initial))))
           "R1"
           {| reportIds := ["a"; "b"];
              reportNames := ["worker_xray_report_2025-01-02";
                              "worker_xray_report_2025-01-01"] |}
           Violations eq_refl eq_refl).
Defined.

(** C4.  In generate mode, when the creation step fails, the handler
    answers with the text of that failure and stops in the state the
    creation step left: the creation request is the only request of the
    run, so the listing call is not made.  When the failure comes from a
    response status, the text contains the variant's failure text followed
    by that status ([Failed to generate the violations report: 500]). *)
Theorem generate_mode_creation_failure
    reportType generate request failure
    (now : string) (context : PlatformContext) (st st1 : State) (e : JsError) :
  ReportVariant reportType generate request failure ->
  generate context (createReportPayload (generateReportName now))
           (generateReportName now) st = (Throw e, st1) ->
  handler reportType false now context st
  = (Ok {| message := error_message e |}, st1)
  /\ requests st1
     = (requests st ++ [request (createReportPayload (generateReportName now))])%list
  /\ request (createReportPayload (generateReportName now)) <> list_request
  /\ (forall res,
         platformHttp context (requests st)
           (request (createReportPayload (generateReportName now))) = Resolved res ->
         contains (error_message e) (failure ++ string_of_Z (status res))).
Proof.
  intros V Hgen. split; [|split; [|split]].
  - rewrite (handler_generate now context st V). cbv zeta. rewrite Hgen.
    reflexivity.
  - pose proof (requester_requests context
                  (createReportPayload (generateReportName now))
                  (generateReportName now) st V) as H.
    rewrite Hgen in H. exact H.
  - destruct V; discriminate.
  - intros res Hres.
    assert (Hshape : generate context (createReportPayload (generateReportName now))
                       (generateReportName now)
                     = guarded_call context
                         (request (createReportPayload (generateReportName now)))
                         failure (fun res => ret (report_id (data res))))
      by (destruct V; reflexivity).
    rewrite Hshape in Hgen.
    destruct (is_success res) eqn:Hok.
    + rewrite (@guarded_call_success _ context _ failure _ st res _ _
                 Hres Hok eq_refl) in Hgen.
      discriminate.
    + rewrite (@guarded_call_status _ _ _ failure _ _ _ Hres Hok) in Hgen.
      injection Hgen as <- _. simpl error_message. apply contains_suffix.
Qed.

Lemma generate_mode_creation_failure_witness :
  handler "violations" false example_now failing_500 initial
  = (Ok {| message :=
             "Failed to generate the violations report: Failed to generate the violations report: 500" |},
     snd (generateViolationsReport failing_500
            (createReportPayload "worker_xray_report_2025-01-03")
            "worker_xray_report_2025-01-03" initial))
  /\ contains
       "Failed to generate the violations report: Failed to generate the violations report: 500"
       "Failed to generate the violations report: 500".
Proof.
  destruct (@generate_mode_creation_failure _ _ _ _ example_now failing_500 initial
              (snd (generateViolationsReport failing_500
                      (createReportPayload "worker_xray_report_2025-01-03")
                      "worker_xray_report_2025-01-03" initial))
              (new_Error
                 "Failed to generate the violations report: Failed to generate the violations report: 500")
              Violations eq_refl)
    as (Hrun & _ & _ & Htext).
  split; [exact Hrun|].
  exact (Htext (response 500 "" []) eq_refl).
Defined.

(** C7, as it stands, fails.  On a connection that breaks on DELETE the
    loop throws at the first identifier, yet the handler answers that two
    reports were deleted, and the text of the failure is nowhere in that
    answer. *)
Lemma delete_rejection_not_reported :
  thrown (deleteLoop broken_delete ["a"; "b"]
            (snd (listReports broken_delete initial)))
  = Some {| error_message := "socket hang up"; error_response_status := None |}
  /\ fst (handler "violations" true example_now broken_delete initial)
     = Ok {| message := "Successfully deleted 2 reports." |}
  /\ requests (snd (handler "violations" true example_now broken_delete initial))
     = [list_request; delete_request "a"]
  /\ ~ contains "Successfully deleted 2 reports." "socket hang up".
Proof.
  repeat split.
  intros H. apply includes_contains in H. discriminate.
Qed.

(** C7, amended.  When the client rejects the DELETE of one identifier,
    the identifiers after it are not attempted, the deleter records
    [Failed to delete reports: <text>] on the error console and completes
    normally, and the handler answers [Successfully deleted N reports.],
    N being the number of identifiers listed. *)
Theorem delete_rejection_is_swallowed
    (reportType now : string) (context : PlatformContext)
    (st0 st st1 : State) (listing : ReportListing)
    (pre post : list string) (reportId : string) (err : JsError) :
  listReports context st0 = (Ok listing, st) ->
  reportIds listing = (pre ++ reportId :: post)%list ->
  deleteLoop context pre st = (Ok tt, st1) ->
  platformHttp context (requests st1) (delete_request reportId) = Rejected err ->
  let final :=
    logged ERROR [Text ("Failed to delete reports: " ++ error_message err)]
      (sent (delete_request reportId) st1) in
  deleteReports context (pre ++ reportId :: post) st = (Ok tt, final)
  /\ requests final
     = (requests st ++ map delete_request (pre ++ [reportId]))%list
  /\ handler reportType true now context st0
     = (Ok {| message := "Successfully deleted "
                           ++ string_of_nat (List.length (pre ++ reportId :: post))
                           ++ " reports." |},
        final).
Proof.
  intros Hlist Hids Hpre Hrej final.
  assert (Hdel : deleteReports context (pre ++ reportId :: post) st = (Ok tt, final)).
  { unfold deleteReports, try_catch.
    rewrite deleteLoop_app, Hpre, deleteLoop_cons, Hrej. reflexivity. }
  split; [exact Hdel|]. split.
  - unfold final. simpl. rewrite (deleteLoop_completed _ _ _ Hpre).
    rewrite map_app, app_assoc. reflexivity.
  - rewrite handler_clean, Hlist, Hids, Hdel.
    destruct pre; reflexivity.
Qed.

Lemma delete_rejection_is_swallowed_witness :
  handler "violations" true example_now broken_delete initial
  = (Ok {| message := "Successfully deleted 2 reports." |},
     logged ERROR [Text "Failed to delete reports: socket hang up"]
       (sent (delete_request "a") (snd (listReports broken_delete initial)))).
Proof.
  apply (@delete_rejection_is_swallowed "violations" example_now
           broken_delete initial (snd (listReports broken_delete initial))
           (snd (listReports broken_delete initial))
           {| reportIds := ["a"; "b"];
              reportNames := ["worker_xray_report_2025-01-02";
                              "worker_xray_report_2025-01-01"] |}
           [] ["b"] "a"
           {| error_message := "socket hang up"; error_response_status := None |}
           eq_refl eq_refl eq_refl eq_refl).
Defined.

(** C8.  Whatever the configuration and whatever the client does on each
    call, the handler returns one response and throws nothing. *)
Theorem handler_never_throws
    (reportType : string) (cleanReports : bool) (now : string)
    (context : PlatformContext) (st : State) :
  exists response st',
    handler reportType cleanReports now context st = (Ok response, st').
Proof.
  destruct cleanReports.
  - rewrite handler_clean.
    destruct (listReports context st) as [[listing|e] st1].
    + destruct (0 <? List.length (reportIds listing))%nat;
        do 2 eexists; reflexivity.
    + do 2 eexists; reflexivity.
  - destruct (ReportVariant_cases reportType)
      as [(generate & request & failure & V)|[H1 H2]].
    + rewrite (handler_generate now context st V). cbv zeta.
      destruct (generate context _ _ st) as [[rid|e] st1].
      * destruct (listReports context st1) as [[listing|e] st2];
          do 2 eexists; reflexivity.
      * do 2 eexists; reflexivity.
    + rewrite (@handler_unknown reportType now context st H1 H2).
      do 2 eexists; reflexivity.
Qed.


(** ** Further properties: report naming *)

Lemma split_first (sep : ascii) (a b : string) :
  has_char sep a = false ->
  split sep (a ++ String sep b) = a :: split sep b.
Proof.
  induction a as [|c a IH]; intros Hno.
  - simpl. rewrite Ascii.eqb_refl. reflexivity.
  - simpl in Hno. apply orb_false_iff in Hno as [Hc Ha].
    simpl. rewrite Hc, (IH Ha). reflexivity.
Qed.

(** X1.  When the clock reads [<date>T<time>] and the date part holds no
    [T], the report name is the fixed prefix followed by the date part. *)
Theorem generateReportName_date (date time : string) :
  has_char "T" date = false ->
  generateReportName (date ++ "T" ++ time) = "worker_xray_report_" ++ date.
Proof.
  intros Hno. unfold generateReportName.
  change ("T" ++ time) with (String "T" time).
  rewrite (@split_first _ _ time Hno). reflexivity.
Qed.

Lemma generateReportName_date_witness :
  generateReportName ("2025-02-22" ++ "T" ++ "08:15:30.123Z")
  = "worker_xray_report_" ++ "2025-02-22".
Proof.
  apply (@generateReportName_date "2025-02-22" "08:15:30.123Z").
  reflexivity.
Defined.

(** X3.  Whatever the clock reads, a report that carries the generated
    name is one the lister keeps: the name passes the prefix filter. *)
Theorem generated_name_is_listed (now i st : string) (pr : Z) :
  is_worker_report
    {| ReportDetail.id := i; ReportDetail.status := st;
       ReportDetail.name := generateReportName now;
       ReportDetail.progress := pr |} = true.
Proof.
  exact (prefix_append "worker_xray_report_" (nth 0 (split "T"%char now) "")).
Qed.

(** ** Further properties: the POST helpers *)

Lemma obj_set_fresh (k : string) (v : JsValue) (o : JsObject) :
  ~ In k (map fst o) -> obj_set k v o = (o ++ [(k, v)])%list.
Proof.
  induction o as [|[k' v'] o IH]; intros Hfresh.
  - reflexivity.
  - simpl. destruct (String.eqb k' k) eqn:E.
    + apply String.eqb_eq in E. exfalso. apply Hfresh. left. exact E.
    + rewrite IH; [reflexivity|]. intros Hin. apply Hfresh. right. exact Hin.
Qed.

(** X4.  For a payload that has no [headers] property of its own, the
    violations helper sends one POST whose body is the payload with a
    [headers] property added at the end, and it passes no request
    options. *)
Theorem generateViolationsReport_request
    (context : PlatformContext) (payload : JsObject) (reportName : string)
    (st : State) :
  ~ In "headers" (map fst payload) ->
  requests (snd (generateViolationsReport context payload reportName st))
  = (requests st
       ++ [Post "/xray/api/v1/reports/violations"
             (Some (JObj (payload
                            ++ [("headers",
                                 JObj [("Content-Type", JStr "application/json")])])))
             None])%list.
Proof.
  intros Hfresh.
  rewrite (@requester_requests _ _ _ _ context payload reportName st Violations).
  unfold violations_request. rewrite obj_set_fresh by exact Hfresh. reflexivity.
Qed.

Lemma generateViolationsReport_request_witness :
  requests (snd (generateViolationsReport failing_500
                   (createReportPayload "n") "n" initial))
  = [Post "/xray/api/v1/reports/violations"
       (Some (JObj (createReportPayload "n"
                      ++ [("headers",
                           JObj [("Content-Type", JStr "application/json")])])))
       None].
Proof.
  apply (@generateViolationsReport_request failing_500
           (createReportPayload "n") "n" initial).
  simpl. intros [H|[H|[H|[]]]]; discriminate.
Defined.

Lemma helper_shape (h : PostHelper) context payload reportName st :
  exists (A : Type) (k : HttpResponse -> M A),
    (forall res s, exists a s', k res s = (Ok a, s'))
    /\ helper_thrown h context payload reportName st
       = thrown (guarded_call context (helper_request h payload)
                   (helper_failure h) k st)
    /\ helper_state h context payload reportName st
       = snd (guarded_call context (helper_request h payload)
                (helper_failure h) k st).
Proof.
  destruct h.
  - exists string, (fun res => ret (report_id (data res))).
    split; [intros; do 2 eexists; reflexivity|]. split; reflexivity.
  - exists string, (fun res => ret (report_id (data res))).
    split; [intros; do 2 eexists; reflexivity|]. split; reflexivity.
  - eexists ReportListing, _.
    split; [|split; unfold helper_thrown, helper_state;
                    rewrite listReports_shape; reflexivity].
    intros res s. unfold bind, console_write, console_warn, ret. simpl.
    destruct (List.length (filter is_worker_report (reports (data res))) =? 0)%nat;
      do 2 eexists; reflexivity.
Qed.

(** X5.  When the client rejects the call, each POST helper writes one
    error line, with the status of the error's response or [<none>], and
    fails with its fixed text followed by the text of the rejection. *)
Theorem helper_rejected
    (h : PostHelper) (context : PlatformContext) (payload : JsObject)
    (reportName : string) (st : State) (err : JsError) :
  platformHttp context (requests st) (helper_request h payload) = Rejected err ->
  helper_thrown h context payload reportName st
  = Some (new_Error (helper_failure h ++ error_message err))
  /\ helper_state h context payload reportName st
     = logged ERROR
         [Text ("Request failed with status " ++ status_or_none err
                  ++ ": " ++ error_message err)]
         (sent (helper_request h payload) st).
Proof.
  intros Hrej.
  destruct (helper_shape h context payload reportName st)
    as (A & k & _ & -> & ->).
  rewrite (@guarded_call_rejected _ _ _ (helper_failure h) k _ _ Hrej).
  split; reflexivity.
Qed.

Lemma helper_rejected_witness :
  helper_thrown ListReports offline [] "" initial
  = Some (new_Error "Failed to retrieve the reports: connect ECONNREFUSED")
  /\ helper_state ListReports offline [] "" initial
     = {| requests := [list_request];
          console :=
            [(ERROR,
              [Text "Request failed with status <none>: connect ECONNREFUSED"])] |}.
Proof.
  apply (@helper_rejected ListReports offline [] "" initial
           {| error_message := "connect ECONNREFUSED";
              error_response_status := None |}
           eq_refl).
Defined.

(** X6.  When the call resolves with a status of 400 or more, each POST
    helper writes two lines: a warning that names the status, then an
    error line that reports the status as [<none>], because the error it
    catches is the one it has just thrown, which carries no response. *)
Theorem helper_status_failure_console
    (h : PostHelper) (context : PlatformContext) (payload : JsObject)
    (reportName : string) (st : State) (res : HttpResponse) :
  platformHttp context (requests st) (helper_request h payload) = Resolved res ->
  400 <= status res ->
  helper_state h context payload reportName st
  = {| requests := requests st ++ [helper_request h payload];
       console :=
         console st
           ++ [ (WARN, [Text ("Request succeeded but returned a non-200 status: "
                                ++ string_of_Z (status res))]);
                (ERROR, [Text ("Request failed with status <none>: "
                                 ++ helper_failure h
                                 ++ string_of_Z (status res))]) ] |}.
Proof.
  intros Hres Hs. apply is_success_ge in Hs.
  destruct (helper_shape h context payload reportName st)
    as (A & k & _ & _ & ->).
  rewrite (@guarded_call_status _ _ _ (helper_failure h) k _ _ Hres Hs).
  unfold logged, sent. simpl. rewrite <- app_assoc. reflexivity.
Qed.

Lemma helper_status_failure_console_witness :
  helper_state RequestViolations failing_500 [] "" initial
  = {| requests := [violations_request []];
       console :=
         [ (WARN, [Text "Request succeeded but returned a non-200 status: 500"]);
           (ERROR,
            [Text "Request failed with status <none>: Failed to generate the violations report: 500"]) ] |}.
Proof.
  apply (@helper_status_failure_console RequestViolations failing_500 [] ""
           initial (response 500 "" []) eq_refl).
  simpl. lia.
Defined.

Lemma guarded_call_throws {A} context r failure (k : HttpResponse -> M A) st e st' :
  (forall res s, exists a s', k res s = (Ok a, s')) ->
  guarded_call context r failure k st = (Throw e, st') ->
  error_response_status e = None
  /\ exists detail, error_message e = failure ++ detail.
Proof.
  intros Hk Hrun.
  destruct (platformHttp context (requests st) r) as [res|err] eqn:Hcall.
  - destruct (is_success res) eqn:Hok.
    + destruct (Hk res (sent r st)) as (a & s' & Hka).
      rewrite (@guarded_call_success _ _ _ failure k _ _ _ _ Hcall Hok Hka) in Hrun.
      discriminate.
    + rewrite (@guarded_call_status _ _ _ failure k _ _ Hcall Hok) in Hrun.
      injection Hrun as <- _. split; [reflexivity|]. eexists. reflexivity.
  - rewrite (@guarded_call_rejected _ _ _ failure k _ _ Hcall) in Hrun.
    injection Hrun as <- _. split; [reflexivity|]. eexists. reflexivity.
Qed.

(** X7.  Every error that leaves a POST helper is a fresh error: its text
    starts with the helper's fixed text and it carries no response, so
    the status of a rejected call is not passed on to the caller. *)
Theorem helper_errors_are_wrapped
    (h : PostHelper) (context : PlatformContext) (payload : JsObject)
    (reportName : string) (st : State) (e : JsError) :
  helper_thrown h context payload reportName st = Some e ->
  error_response_status e = None
  /\ exists detail, error_message e = helper_failure h ++ detail.
Proof.
  intros Hthrown.
  destruct (helper_shape h context payload reportName st)
    as (A & k & Hk & Heq & _).
  rewrite Heq in Hthrown. unfold thrown in Hthrown.
  destruct (guarded_call context (helper_request h payload) (helper_failure h) k st)
    as [[a|e'] st'] eqn:Hrun; simpl in Hthrown; [discriminate|].
  injection Hthrown as ->.
  exact (@guarded_call_throws _ _ _ _ _ _ _ _ Hk Hrun).
Qed.

Lemma helper_errors_are_wrapped_witness :
  error_response_status
    (new_Error "Failed to retrieve the reports: connect ECONNREFUSED") = None
  /\ exists detail,
       error_message
         (new_Error "Failed to retrieve the reports: connect ECONNREFUSED")
       = helper_failure ListReports ++ detail.
Proof.
  apply (@helper_errors_are_wrapped ListReports offline [] "" initial
           (new_Error "Failed to retrieve the reports: connect ECONNREFUSED")
           eq_refl).
Defined.

Lemma listReports_throws context st e st' :
  listReports context st = (Throw e, st') ->
  exists detail, error_message e = listing_failure ++ detail.
Proof.
  rewrite listReports_shape. intros Hrun.
  refine (proj2 (@guarded_call_throws _ _ _ _ _ _ _ _ _ Hrun)).
  intros res s. unfold bind, console_write, console_warn, ret. simpl.
  destruct (List.length (filter is_worker_report (reports (data res))) =? 0)%nat;
    do 2 eexists; reflexivity.
Qed.

Lemma requester_throws reportType generate request failure
    context payload reportName st e st' :
  ReportVariant reportType generate request failure ->
  generate context payload reportName st = (Throw e, st') ->
  exists detail, error_message e = failure ++ detail.
Proof.
  intros V Hrun.
  assert (Hshape : generate context payload reportName
                   = guarded_call context (request payload) failure
                       (fun res => ret (report_id (data res))))
    by (destruct V; reflexivity).
  rewrite Hshape in Hrun.
  refine (proj2 (@guarded_call_throws _ _ _ _ _ _ _ _ _ Hrun)).
  intros res s. do 2 eexists. reflexivity.
Qed.

(** ** Further properties: the deleter *)

Lemma deleteLoop_prefix context ids st :
  exists k,
    (k <= List.length ids)%nat
    /\ requests (snd (deleteLoop context ids st))
       = (requests st ++ map delete_request (firstn k ids))%list.
Proof.
  revert st. induction ids as [|reportId ids IH]; intros st.
  - exists 0%nat. split; [reflexivity|]. simpl. rewrite app_nil_r. reflexivity.
  - rewrite deleteLoop_cons.
    destruct (platformHttp context (requests st) (delete_request reportId))
      as [res|err].
    + match goal with
      | |- context [deleteLoop context ids ?s] =>
          destruct (IH s) as (k & Hk & Hreq)
      end.
      exists (S k). split; [simpl; lia|].
      rewrite Hreq. simpl. rewrite <- app_assoc. reflexivity.
    + exists 1%nat. split; [simpl; lia|]. reflexivity.
Qed.


Lemma deleteLoop_answers context (answer : string -> HttpResponse) ids st :
  (forall history reportId,
      In reportId ids ->
      platformHttp context history (delete_request reportId)
      = Resolved (answer reportId)) ->
  deleteLoop context ids st
  = (Ok tt,
     {| requests := requests st ++ map delete_request ids;
        console := console st
                     ++ map (fun reportId => delete_line reportId (answer reportId))
                          ids |}).
Proof.
  revert st. induction ids as [|reportId ids IH]; intros st Hans.
  - simpl. rewrite !app_nil_r. destruct st; reflexivity.
  - rewrite deleteLoop_cons, (Hans (requests st) reportId (or_introl eq_refl)).
    rewrite IH by (intros history i Hi; apply Hans; right; exact Hi).
    unfold logged, sent, delete_line. simpl.
    rewrite <- !app_assoc. simpl.
    destruct (is_success (answer reportId)); reflexivity.
Qed.

(** X9.  When every DELETE resolves, the deleter writes one console line
    per identifier, in order: a log line when the status is below 400,
    otherwise a warning that names the identifier and the status. *)
Theorem deleteReports_console
    (context : PlatformContext) (answer : string -> HttpResponse)
    (ids : list string) (st : State) :
  (forall history reportId,
      In reportId ids ->
      platformHttp context history (delete_request reportId)
      = Resolved (answer reportId)) ->
  console (snd (deleteReports context ids st))
  = (console st
       ++ map (fun reportId => delete_line reportId (answer reportId)) ids)%list.
Proof.
  intros Hans. unfold deleteReports, try_catch.
  rewrite (deleteLoop_answers _ _ _ st Hans). reflexivity.
Qed.

Lemma deleteReports_console_witness :
  console (snd (deleteReports refusing_b ["a"; "b"] initial))
  = [ (LOG, [Text "Successfully deleted report with ID: a"]);
      (WARN, [Text "Failed to delete report with ID: b, status: 500"]) ].
Proof.
  apply (@deleteReports_console refusing_b
           (fun reportId =>
              if String.eqb ("/xray/api/v1/reports/" ++ reportId)
                            "/xray/api/v1/reports/b"
              then response 500 "" [] else response 200 "" [])
           ["a"; "b"] initial).
  intros history reportId Hin. unfold refusing_b, platformHttp, delete_request.
  match goal with
  | |- context [if ?b then _ else _] => destruct b
  end; reflexivity.
Defined.

(** ** Further properties: the handler *)

(** X10.  In clean-up mode, when the listing fails, the handler answers
    with the text of that failure, which starts with the lister's fixed
    text, and the listing is the only request of the run: nothing is
    deleted. *)
Theorem clean_mode_listing_failure
    (reportType now : string) (context : PlatformContext)
    (st st1 : State) (e : JsError) :
  listReports context st = (Throw e, st1) ->
  handler reportType true now context st
  = (Ok {| message := error_message e |}, st1)
  /\ requests st1 = (requests st ++ [list_request])%list
  /\ exists detail, error_message e = "Failed to retrieve the reports: " ++ detail.
Proof.
  intros Hlist. split; [|split].
  - rewrite handler_clean, Hlist. reflexivity.
  - pose proof (listReports_requests context st) as H.
    rewrite Hlist in H. exact H.
  - exact (listReports_throws _ _ Hlist).
Qed.

Lemma clean_mode_listing_failure_witness :
  handler "violations" true example_now offline initial
  = (Ok {| message := "Failed to retrieve the reports: connect ECONNREFUSED" |},
     snd (listReports offline initial)).
Proof.
  apply (@clean_mode_listing_failure "violations" example_now offline initial
           (snd (listReports offline initial))
           (new_Error "Failed to retrieve the reports: connect ECONNREFUSED")
           eq_refl).
Defined.

(** X11.  In generate mode, when the report is created but the listing
    that follows fails, the handler answers with the lister's failure
    text and not with the success message, although the creation request
    has been sent. *)
Theorem generate_mode_listing_failure
    reportType generate request failure
    (now : string) (context : PlatformContext) (st st1 st2 : State)
    (rid : string) (e : JsError) :
  ReportVariant reportType generate request failure ->
  generate context (createReportPayload (generateReportName now))
           (generateReportName now) st = (Ok rid, st1) ->
  listReports context st1 = (Throw e, st2) ->
  handler reportType false now context st
  = (Ok {| message := error_message e |}, st2)
  /\ requests st2
     = (requests st
          ++ [request (createReportPayload (generateReportName now));
              list_request])%list
  /\ exists detail, error_message e = "Failed to retrieve the reports: " ++ detail.
Proof.
  intros V Hgen Hlist. split; [|split].
  - rewrite (handler_generate now context st V). cbv zeta.
    rewrite Hgen, Hlist. reflexivity.
  - pose proof (listReports_requests context st1) as H2.
    rewrite Hlist in H2. simpl in H2. rewrite H2.
    pose proof (@requester_requests _ _ _ _ context
                  (createReportPayload (generateReportName now))
                  (generateReportName now) st V) as H1.
    rewrite Hgen in H1. simpl in H1. rewrite H1, <- app_assoc. reflexivity.
  - exact (listReports_throws _ _ Hlist).
Qed.

Lemma generate_mode_listing_failure_witness :
  fst (handler "violations" false example_now listing_refused initial)
  = Ok {| message :=
            "Failed to retrieve the reports: Failed to retrieve the reports: 503" |}.
Proof.
  refine (f_equal fst
            (proj1 (@generate_mode_listing_failure _ _ _ _ example_now
                      listing_refused initial
                      (snd (generateViolationsReport listing_refused
                              (createReportPayload "worker_xray_report_2025-01-03")
                              "worker_xray_report_2025-01-03" initial))
                      (snd (handler "violations" false example_now
                              listing_refused initial))
                      "R1"
                      (new_Error
                         "Failed to retrieve the reports: Failed to retrieve the reports: 503")
                      Violations eq_refl eq_refl))).
Defined.

(** X12.  In generate mode, a report type other than the two known ones
    makes the handler answer [Unknown report type: <type>] without
    sending a request or writing to the console. *)
Theorem generate_mode_unknown_type
    (reportType now : string) (context : PlatformContext) (st : State) :
  reportType <> "vulnerabilities" ->
  reportType <> "violations" ->
  handler reportType false now context st
  = (Ok {| message := "Unknown report type: " ++ reportType |}, st).
Proof.
  intros H1 H2. apply handler_unknown; apply String.eqb_neq; assumption.
Qed.

Lemma generate_mode_unknown_type_witness :
  handler "Violations" false example_now offline initial
  = (Ok {| message := "Unknown report type: Violations" |}, initial).
Proof.
  apply (@generate_mode_unknown_type "Violations" example_now offline initial);
    discriminate.
Defined.

(** X13.  A generate run sends at most two requests, all of them POSTs:
    it never deletes a report. *)
Theorem generate_mode_only_posts
    (reportType now : string) (context : PlatformContext) (st : State) :
  exists added,
    requests (snd (handler reportType false now context st))
    = (requests st ++ added)%list
    /\ Forall (fun r => is_post r = true) added
    /\ (List.length added <= 2)%nat.
Proof.
  destruct (ReportVariant_cases reportType)
    as [(generate & request & failure & V)|[H1 H2]].
  - rewrite (handler_generate now context st V). cbv zeta.
    pose proof (@requester_requests _ _ _ _ context
                  (createReportPayload (generateReportName now))
                  (generateReportName now) st V) as Hc.
    assert (Hpost : is_post (request (createReportPayload (generateReportName now)))
                    = true) by (destruct V; reflexivity).
    destruct (generate context _ _ st) as [[rid|e] st1]; simpl in Hc.
    + pose proof (listReports_requests context st1) as Hl.
      destruct (listReports context st1) as [[listing|e] st2]; simpl in Hl |- *;
        exists [request (createReportPayload (generateReportName now)); list_request];
        (split; [rewrite Hl, Hc, <- app_assoc; reflexivity|]);
        (split; [repeat constructor; exact Hpost | simpl; lia]).
    + exists [request (createReportPayload (generateReportName now))].
      split; [exact Hc|]. split; [repeat constructor; exact Hpost | simpl; lia].
  - rewrite (@handler_unknown reportType now context st H1 H2).
    exists []. split; [simpl; rewrite app_nil_r; reflexivity|].
    split; [constructor | simpl; lia].
Qed.

(** X14.  A clean-up run sends the listing request and then DELETEs for
    the first identifiers the lister returned, in order, and nothing
    else: it never creates a report.  When the listing fails, the listing
    request is the only one. *)
Theorem clean_mode_requests
    (reportType now : string) (context : PlatformContext) (st : State) :
  exists k,
    requests (snd (handler reportType true now context st))
    = (requests st
         ++ list_request
         :: map delete_request
              (firstn k match fst (listReports context st) with
                        | Ok listing => reportIds listing
                        | Throw _ => []
                        end))%list.
Proof.
  rewrite handler_clean.
  pose proof (listReports_requests context st) as Hl.
  destruct (listReports context st) as [[listing|e] st1]; simpl in Hl |- *.
  - destruct (reportIds listing) as [|i ids] eqn:Hids.
    + exists 0%nat. simpl. exact Hl.
    + change (0 <? List.length (i :: ids))%nat with true. cbv iota.
      unfold deleteReports, try_catch.
      destruct (deleteLoop_prefix context (i :: ids) st1) as (k & _ & Hreq).
      exists k.
      destruct (deleteLoop context (i :: ids) st1) as [[[]|e] st2];
        simpl in Hreq |- *; rewrite Hreq, Hl, <- app_assoc; reflexivity.
  - exists 0%nat. simpl. exact Hl.
Qed.

(** X15.  The answer of a generate run for a known report type is one of
    three: the success message with the name computed for the run, a text
    that starts with the variant's creation-failure text, or a text that
    starts with the lister's failure text. *)
Theorem generate_mode_messages
    reportType generate request failure
    (now : string) (context : PlatformContext) (st : State) :
  ReportVariant reportType generate request failure ->
  exists response st',
    handler reportType false now context st = (Ok response, st')
    /\ (message response = generated_message (generateReportName now)
        \/ (exists detail, message response = failure ++ detail)
        \/ (exists detail,
               message response = "Failed to retrieve the reports: " ++ detail)).
Proof.
  intros V. rewrite (handler_generate now context st V). cbv zeta.
  destruct (generate context _ _ st) as [[rid|e] st1] eqn:Hgen.
  - destruct (listReports context st1) as [[listing|e] st2] eqn:Hlist.
    + do 2 eexists. split; [reflexivity|]. left. reflexivity.
    + do 2 eexists. split; [reflexivity|]. right. right.
      exact (listReports_throws _ _ Hlist).
  - do 2 eexists. split; [reflexivity|]. right. left.
    exact (@requester_throws _ _ _ _ _ _ _ _ _ _ V Hgen).
Qed.

Lemma generate_mode_messages_witness :
  exists response st',
    handler "vulnerabilities" false example_now offline initial
    = (Ok response, st')
    /\ (message response
        = generated_message (generateReportName example_now)
        \/ (exists detail,
               message response = vulnerabilities_failure ++ detail)
        \/ (exists detail,
               message response = "Failed to retrieve the reports: " ++ detail)).
Proof.
  apply (@generate_mode_messages _ _ _ _ example_now offline initial
           Vulnerabilities).
Defined.

(** X16.  The answer of a clean-up run is one of three: the no-reports
    message, the deleted message with a positive count, or a text that
    starts with the lister's failure text. *)
Theorem clean_mode_messages
    (reportType now : string) (context : PlatformContext) (st : State) :
  exists response st',
    handler reportType true now context st = (Ok response, st')
    /\ (message response = "No reports found to delete."
        \/ (exists n, (0 < n)%nat /\ message response = deleted_message n)
        \/ (exists detail,
               message response = "Failed to retrieve the reports: " ++ detail)).
Proof.
  rewrite handler_clean.
  destruct (listReports context st) as [[listing|e] st1] eqn:Hlist.
  - destruct (0 <? List.length (reportIds listing))%nat eqn:Hn.
    + do 2 eexists. split; [reflexivity|]. right. left.
      exists (List.length (reportIds listing)). split; [|reflexivity].
      apply Nat.ltb_lt. exact Hn.
    + do 2 eexists. split; [reflexivity|]. left. reflexivity.
  - do 2 eexists. split; [reflexivity|]. right. right.
    exact (listReports_throws _ _ Hlist).
Qed.

(** X17.  A clean-up run does not depend on the report type or on the
    clock: with an unknown report type it behaves as with a known one. *)
Theorem clean_mode_ignores_report_type
    (reportType reportType' now now' : string)
    (context : PlatformContext) (st : State) :
  handler reportType true now context st
  = handler reportType' true now' context st.
Proof. rewrite !handler_clean. reflexivity. Qed.

(** X18.  In a successful generate run the requests are the creation and
    then the listing, and the last console line names the first listed
    identifier, or says that none was found; the [report_id] the creation
    returned is not used. *)
Theorem generate_mode_success_state
    reportType generate request failure
    (now : string) (context : PlatformContext) (st st1 st2 : State)
    (rid : string) (listing : ReportListing) :
  ReportVariant reportType generate request failure ->
  generate context (createReportPayload (generateReportName now))
           (generateReportName now) st = (Ok rid, st1) ->
  listReports context st1 = (Ok listing, st2) ->
  let final := snd (handler reportType false now context st) in
  requests final
  = (requests st
       ++ [request (createReportPayload (generateReportName now));
           list_request])%list
  /\ console final
     = (console st2
          ++ [(LOG,
               [Text match reportIds listing with
                     | first :: _ =>
                         "Report created with name: " ++ generateReportName now
                           ++ " and ID: " ++ first
                     | [] =>
                         "Report created with name: " ++ generateReportName now
                           ++ " but no report ID was found."
                     end])])%list.
Proof.
  intros V Hgen Hlist final. unfold final.
  rewrite (handler_generate now context st V). cbv zeta.
  rewrite Hgen, Hlist. split.
  - pose proof (listReports_requests context st1) as H2.
    rewrite Hlist in H2. simpl in H2.
    pose proof (@requester_requests _ _ _ _ context
                  (createReportPayload (generateReportName now))
                  (generateReportName now) st V) as H1.
    rewrite Hgen in H1. simpl in H1.
    simpl. rewrite H2, H1, <- app_assoc. reflexivity.
  - destruct (reportIds listing); reflexivity.
Qed.

Lemma generate_mode_success_state_witness :
  requests (snd (handler "violations" false example_now refusing_b initial))
  = [violations_request (createReportPayload "worker_xray_report_2025-01-03");
     list_request]
  /\ console (snd (handler "violations" false example_now refusing_b initial))
     = (console
          (snd (listReports refusing_b
                  (snd (generateViolationsReport refusing_b
                          (createReportPayload "worker_xray_report_2025-01-03")
                          "worker_xray_report_2025-01-03" initial))))
          ++ [(LOG,
               [Text "Report created with name: worker_xray_report_2025-01-03 and ID: a"])])%list.
Proof.
  apply (@generate_mode_success_state _ _ _ _
           example_now refusing_b initial
           (snd (generateViolationsReport refusing_b
                   (createReportPayload "worker_xray_report_2025-01-03")
                   "worker_xray_report_2025-01-03" initial))
           (snd (listReports refusing_b
                   (snd (generateViolationsReport refusing_b
                           (createReportPayload "worker_xray_report_2025-01-03")
                           "worker_xray_report_2025-01-03" initial))))
           "R1"
           {| reportIds := ["a"; "b"];
              reportNames := ["worker_xray_report_2025-01-02";
                              "worker_xray_report_2025-01-01"] |}
           Violations eq_refl eq_refl).
Defined.

(** ** Further properties: the lister's console and the name's date part *)

Lemma filter_empty_existsb {A} (keep : A -> bool) (l : list A) :
  (List.length (filter keep l) =? 0)%nat = negb (existsb keep l).
Proof.
  induction l as [|x l IH]; simpl.
  - reflexivity.
  - destruct (keep x); [reflexivity|exact IH].
Qed.

(** X19.  On a successful listing the lister writes the whole list it
    received to the console, then the filtered list, and a warning
    exactly when the filtered list is empty. *)
Theorem listReports_console
    (context : PlatformContext) (st : State) (res : HttpResponse) :
  platformHttp context (requests st) list_request = Resolved res ->
  status res < 400 ->
  console (snd (listReports context st))
  = (console st
       ++ [ (LOG, [Text "All Reports:"; ReportList (reports (data res))]);
            (LOG, [Text "Filtered Reports:";
                   ReportList (filter is_worker_report (reports (data res)))]) ]
       ++ if existsb is_worker_report (reports (data res)) then []
          else [(WARN,
                 [Text "No reports found with the specified name pattern."])])%list.
Proof.
  intros Hres Hs. apply is_success_lt in Hs.
  rewrite listReports_shape.
  unfold guarded_call, try_catch, bind.
  rewrite (await_http_resolved _ _ _ Hres), Hs.
  unfold console_write, console_warn, ret, sent. cbv beta iota zeta.
  rewrite filter_empty_existsb.
  destruct (existsb is_worker_report (reports (data res)));
    simpl; rewrite <- !app_assoc; reflexivity.
Qed.

Lemma listReports_console_witness :
  console (snd (listReports (always (Resolved (response 200 "" [report "x" "other"])))
                  initial))
  = [ (LOG, [Text "All Reports:"; ReportList [report "x" "other"]]);
      (LOG, [Text "Filtered Reports:"; ReportList []]);
      (WARN, [Text "No reports found with the specified name pattern."]) ].
Proof.
  apply (@listReports_console
           (always (Resolved (response 200 "" [report "x" "other"])))
           initial (response 200 "" [report "x" "other"]) eq_refl).
  simpl. lia.
Defined.

Lemma split_nonempty (sep : ascii) (s : string) : split sep s <> [].
Proof.
  destruct s as [|c s]; simpl; [discriminate|].
  destruct (Ascii.eqb c sep); [discriminate|].
  destruct (split sep s); discriminate.
Qed.

Lemma split_head (sep : ascii) (s : string) :
  has_char sep (nth 0 (split sep s) "") = false
  /\ (s = nth 0 (split sep s) ""
      \/ exists rest, s = nth 0 (split sep s) "" ++ String sep rest).
Proof.
  induction s as [|c s [Hno Hcut]].
  - split; [reflexivity|left; reflexivity].
  - simpl. destruct (Ascii.eqb c sep) eqn:E.
    + apply Ascii.eqb_eq in E as ->. split; [reflexivity|].
      right. exists s. reflexivity.
    + pose proof (split_nonempty sep s) as Hne.
      destruct (split sep s) as [|piece pieces]; [congruence|].
      simpl in Hno, Hcut |- *. rewrite E, Hno. split; [reflexivity|].
      destruct Hcut as [->|[rest ->]].
      * left. reflexivity.
      * right. exists rest. reflexivity.
Qed.

(** X2.  Whatever the clock reads, the report name is the fixed prefix
    followed by the part of the reading before its first [T], or by the
    whole reading when it holds no [T]. *)
Theorem generateReportName_cut (now : string) :
  exists date,
    generateReportName now = "worker_xray_report_" ++ date
    /\ has_char "T" date = false
    /\ (now = date \/ exists time, now = date ++ "T" ++ time).
Proof.
  exists (nth 0 (split "T"%char now) "").
  split; [reflexivity|]. apply split_head.
Qed.
